(** * RuuviTag monitoring stack

    A shallow embedding of [lib/ruuvi_tag_monitoring-stack.ts]: the
    constructor of [RuuviTagMonitoringStack] declares constructs in the scope
    [this], one after the other, and mutates two of them afterwards
    ([addDependency], [grantWrite]).  The declarations are kept in a store,
    in the order they are made; a JavaScript object reference to a declared
    construct is its position in the store.  The construct library is
    outside the repository.  What it does with a declaration beyond
    registering it (refusing it by throwing, adding constructs of its own to
    the scope) is not part of the constructor's embedding; it is taken as
    given where a property depends on it ([Library], [synthesize]). *)

From Stdlib Require Import ZArith Ascii.
From stdpp Require Import base option list strings gmap.

(** ** Values *)

(** A reference to a construct declared earlier in the same scope. *)
Definition handle := nat.

(** Strings of the stack are either written out at synthesis or stand for a
    value of another construct that only exists at deployment
    ([iotThing.ref], [iotRuleRole.roleArn], [getResponseField(...)]).  A
    template literal is a sequence of such pieces. *)
Inductive piece :=
| Lit (s : string)
| Attribute (target : handle) (name : string)
| ResponseField (target : handle) (path : string).

Definition text := list piece.

Definition pieceTarget (x : piece) : option handle :=
  match x with
  | Lit _ => None
  | Attribute h _ => Some h
  | ResponseField h _ => Some h
  end.

(** The constructs a text refers to. *)
Definition textTargets (t : text) : list handle := omap pieceTarget t.

(** ** The configuration record and the ambient stack values *)

Record RuuviTagMonitoringStackProps := {
  thingName : string;
  iotTopicPrefix : string;
  cloudWatchMetricNameSpace : string;
  ruuviTagId : string
}.

(** What the constructor reads from [this]: JavaScript strings, whether the
    caller fixed them or left them to the deployment environment. *)
Record Stack := {
  stackName : string;
  region : string;
  account : string
}.

(** ** Resource properties, one module per imported library module

    Two records of one module cannot share a field name; where the source
    repeats one, the second record's field is renamed and says so. *)

Module iot.

Record CfnThing := { thingName : string }.

Record CfnThingPrincipalAttachment := {
  principal : text;
  attachedThingName : string  (* thingName *)
}.

Record PolicyStatement := {
  Effect : string;
  Action : list string;
  Resource : list text
}.

Record PolicyDocument := {
  Version : string;
  Statement : list PolicyStatement
}.

Record CfnPolicy := {
  policyName : option string;
  policyDocument : PolicyDocument
}.

Record CfnPolicyPrincipalAttachment := {
  policyPrincipal : text;  (* principal *)
  attachedPolicyName : option string  (* policyName *)
}.

Record CloudwatchMetricAction := {
  metricName : string;
  metricNamespace : string;
  metricUnit : string;
  metricValue : string;
  roleArn : text
}.

Record CloudwatchLogsAction := {
  logGroupName : text;
  logsRoleArn : text  (* roleArn *)
}.

Inductive ActionProperty :=
| cloudwatchMetric (a : CloudwatchMetricAction)
| cloudwatchLogs (a : CloudwatchLogsAction).

Record TopicRulePayload := {
  actions : list ActionProperty;
  awsIotSqlVersion : string;
  sql : string;
  ruleDisabled : bool;
  errorAction : ActionProperty
}.

Record CfnTopicRule := {
  ruleName : string;
  topicRulePayload : TopicRulePayload
}.

End iot.

Module logs.

Inductive RetentionDays := SIX_MONTHS.

(** [new logs.LogGroup(this, id)] is given no properties. *)
Record LogGroup := noProps { }.

End logs.

Module iam.

Inductive Principal := ServicePrincipal (service : string).

Record PolicyStatement := {
  actions : list string;
  resources : list string
}.

Record PolicyDocument := { statements : list PolicyStatement }.

Record Role := {
  assumedBy : Principal;
  inlinePolicies : list (string * PolicyDocument)
}.

End iam.

Module cr.

Inductive PhysicalResourceId :=
| fromResponse (responsePath : string).

(** A parameter of an SDK call: a literal, or the marker
    [new cr.PhysicalResourceIdReference()]. *)
Inductive SdkParameter :=
| PBool (b : bool)
| PString (s : string)
| PhysicalResourceIdReference.

Record AwsSdkCall := {
  service : string;
  action : string;
  parameters : list (string * SdkParameter);
  physicalResourceId : option PhysicalResourceId;
  outputPaths : option (list string)
}.

Inductive SdkCallsPolicyResources := ANY_RESOURCE.

Inductive AwsCustomResourcePolicy :=
| fromSdkCalls (resources : SdkCallsPolicyResources).

Record AwsCustomResource := {
  functionName : string;
  onCreate : AwsSdkCall;
  logRetention : logs.RetentionDays;
  policy : AwsCustomResourcePolicy;
  onDelete : AwsSdkCall
}.

End cr.

Module cdk.

Inductive SecretValue := unsafePlainText (secret : text).

Inductive Duration := minutes (amount : Z).

End cdk.

Module secretsmanager.

Record Secret := { secretObjectValue : list (string * cdk.SecretValue) }.

End secretsmanager.

Module cw.

Inductive Shading := NONE | ABOVE | BELOW.

Inductive LegendPosition := BOTTOM | RIGHT | HIDDEN.

Record Metric := {
  namespace : string;
  metricName : string;
  statistic : string;
  period : cdk.Duration
}.

Record HorizontalAnnotation := {
  value : Z;
  color : string;
  fill : Shading;
  label : string
}.

Record YAxisProps := {
  max : Z;
  min : Z;
  showUnits : bool
}.

Record GraphWidget := {
  left : list Metric;
  leftAnnotations : list HorizontalAnnotation;
  leftYAxis : YAxisProps;
  legendPosition : LegendPosition;
  region : string;
  title : string;
  width : Z;
  height : Z
}.

Record Dashboard := {
  dashboardName : string;
  start : string;
  widgets : list (list GraphWidget)
}.

End cw.

(** ** The scope *)

Inductive Resource :=
| IotThing (r : iot.CfnThing)
| CustomResource (r : cr.AwsCustomResource)
| SecretsManagerSecret (r : secretsmanager.Secret)
| IotThingPrincipalAttachment (r : iot.CfnThingPrincipalAttachment)
| IotPolicy (r : iot.CfnPolicy)
| IotPolicyPrincipalAttachment (r : iot.CfnPolicyPrincipalAttachment)
| LogsLogGroup (r : logs.LogGroup)
| IamRole (r : iam.Role)
| IotTopicRule (r : iot.CfnTopicRule)
| CloudWatchDashboard (r : cw.Dashboard).

(** What [logGroup.grantWrite(grantee)] leaves on the grantee. *)
Inductive Grant := WriteTo (logGroup : handle).

Record Construct := {
  constructId : string;
  resource : Resource;
  dependsOn : list handle;
  grants : list Grant
}.

Definition Scope := list Construct.

(** Declaring and mutating constructs threads the scope. *)
Definition Synth (A : Type) : Type := Scope -> A * Scope.

Definition ret {A} (a : A) : Synth A := fun s => (a, s).

Definition bind {A B} (m : Synth A) (k : A -> Synth B) : Synth B :=
  fun s => let (a, s') := m s in k a s'.

Notation "'let*' x ':=' m 'in' k" := (bind m (fun x => k))
  (at level 10, x name, m at level 100, k at level 200, only parsing).
Notation "'do' m 'in' k" := (bind m (fun _ => k))
  (at level 10, m at level 100, k at level 200, only parsing).

(** [new C(this, id, props)]: the declaration is recorded with the id and
    the properties as the constructor writes them, and the expression
    evaluates to a reference to it.  Whether the library accepts the
    declaration is decided in [synthesize]. *)
Definition new_ (id : string) (r : Resource) : Synth handle :=
  fun s => (length s,
            s ++ [{| constructId := id; resource := r;
                     dependsOn := []; grants := [] |}]).

(** [c.addDependency(target)] *)
Definition addDependency (c target : handle) : Synth unit :=
  fun s => (tt,
            alter (fun x => {| constructId := constructId x;
                               resource := resource x;
                               dependsOn := dependsOn x ++ [target];
                               grants := grants x |}) c s).

(** [logGroup.grantWrite(grantee)] *)
Definition grantWrite (logGroup grantee : handle) : Synth unit :=
  fun s => (tt,
            alter (fun x => {| constructId := constructId x;
                               resource := resource x;
                               dependsOn := dependsOn x;
                               grants := grants x ++ [WriteTo logGroup] |})
                  grantee s).

(** [iotThingPolicy.policyName]: the property as it was given. *)
Definition policyNameOf (c : handle) : Synth (option string) :=
  fun s => (match resource <$> s !! c with
            | Some (IotPolicy r) => iot.policyName r
            | _ => None
            end, s).

(** ** The constructor of [RuuviTagMonitoringStack] *)

Definition RuuviTagMonitoringStack
  (this : Stack) (props : RuuviTagMonitoringStackProps) : Synth unit :=
  let* iotThing :=
    new_ (thingName props)
      (IotThing {| iot.thingName := thingName props |}) in
  let* iotThingKeysAndCert :=
    new_ "IotThingKeysAndCert"
      (CustomResource {|
         cr.functionName := stackName this +:+ "CreateIotThingKeysAndCert";
         cr.onCreate := {|
           cr.service := "@aws-sdk/client-iot";
           cr.action := "CreateKeysAndCertificateCommand";
           cr.parameters := [("setAsActive", cr.PBool true)];
           cr.physicalResourceId := Some (cr.fromResponse "certificateId");
           cr.outputPaths :=
             Some ["certificateArn"; "certificatePem"; "keyPair.PrivateKey"]
         |};
         cr.logRetention := logs.SIX_MONTHS;
         cr.policy := cr.fromSdkCalls cr.ANY_RESOURCE;
         cr.onDelete := {|
           cr.service := "@aws-sdk/client-iot";
           cr.action := "DeleteCertificateCommand";
           cr.parameters :=
             [("certificateId", cr.PhysicalResourceIdReference)];
           cr.physicalResourceId := None;
           cr.outputPaths := None
         |}
       |}) in
  let* iotThingKeysAndCertSecret :=
    new_ "IotThingKeysAndCertSecret"
      (SecretsManagerSecret {|
         secretsmanager.secretObjectValue :=
           [("certificatePem",
             cdk.unsafePlainText
               [ResponseField iotThingKeysAndCert "certificatePem"]);
            ("privateKey",
             cdk.unsafePlainText
               [ResponseField iotThingKeysAndCert "keyPair.PrivateKey"])]
       |}) in
  let* iotThingPrincipalAttachment :=
    new_ "IotThingPrincipalAttachment"
      (IotThingPrincipalAttachment {|
         iot.principal := [ResponseField iotThingKeysAndCert "certificateArn"];
         iot.attachedThingName := thingName props
       |}) in
  do addDependency iotThingPrincipalAttachment iotThing in
  let* iotThingPolicy :=
    new_ (thingName props +:+ "Policy")
      (IotPolicy {|
         iot.policyName := Some (thingName props +:+ "Policy");
         iot.policyDocument := {|
           iot.Version := "2012-10-17";
           iot.Statement := [
             {| iot.Effect := "Allow";
                iot.Action := ["iot:Publish"];
                iot.Resource := [
                  [Lit ("arn:aws:iot:" +:+ region this +:+ ":" +:+
                        account this +:+ ":topic/" +:+
                        iotTopicPrefix props +:+ "/*")]
                ] |};
             {| iot.Effect := "Allow";
                iot.Action := ["iot:Connect"];
                iot.Resource := [
                  [Lit ("arn:aws:iot:" +:+ region this +:+ ":" +:+
                        account this +:+ ":client/");
                   Attribute iotThing "ref"]
                ] |}
           ]
         |}
       |}) in
  let* iotThingPolicy_policyName := policyNameOf iotThingPolicy in
  let* _ :=
    new_ "IotThingPolicyPrincipalAttachment"
      (IotPolicyPrincipalAttachment {|
         iot.policyPrincipal :=
           [ResponseField iotThingKeysAndCert "certificateArn"];
         iot.attachedPolicyName := iotThingPolicy_policyName
       |}) in
  let* iotRuleErrorLog :=
    new_ "IotRuleErrorLog" (LogsLogGroup logs.noProps) in
  let* iotRuleRole :=
    new_ "IotRuleRole"
      (IamRole {|
         iam.assumedBy := iam.ServicePrincipal "iot.amazonaws.com";
         iam.inlinePolicies := [
           ("putMetricsPolicy",
            {| iam.statements := [
                 {| iam.actions := ["cloudwatch:PutMetricData"];
                    iam.resources := ["*"] |}
               ] |})
         ]
       |}) in
  do grantWrite iotRuleErrorLog iotRuleRole in
  let* iotRule :=
    new_ ("IotRule_" +:+ ruuviTagId props)
      (IotTopicRule {|
         iot.ruleName := "RuuviTagEvents_" +:+ ruuviTagId props;
         iot.topicRulePayload := {|
           iot.actions := [
             iot.cloudwatchMetric {|
               iot.metricName := "Temperature";
               iot.metricNamespace :=
                 cloudWatchMetricNameSpace props +:+ "/" +:+ ruuviTagId props;
               iot.metricUnit := "None";
               iot.metricValue := "${temperature}";
               iot.roleArn := [Attribute iotRuleRole "roleArn"]
             |};
             iot.cloudwatchMetric {|
               iot.metricName := "Humidity";
               iot.metricNamespace :=
                 cloudWatchMetricNameSpace props +:+ "/" +:+ ruuviTagId props;
               iot.metricUnit := "None";
               iot.metricValue := "${humidity}";
               iot.roleArn := [Attribute iotRuleRole "roleArn"]
             |}
           ];
           iot.awsIotSqlVersion := "2016-03-23";
           iot.sql :=
             "SELECT temperature,humidity FROM '" +:+ iotTopicPrefix props
               +:+ "/" +:+ ruuviTagId props +:+ "'";
           iot.ruleDisabled := false;
           iot.errorAction :=
             iot.cloudwatchLogs {|
               iot.logGroupName := [Attribute iotRuleErrorLog "logGroupName"];
               iot.logsRoleArn := [Attribute iotRuleRole "roleArn"]
             |}
         |}
       |}) in
  let* dashboard :=
    new_ "Dashboard"
      (CloudWatchDashboard {|
         cw.dashboardName := thingName props +:+ "-Dashboard";
         cw.start := "-P7D";
         cw.widgets := [
           [ {| cw.left := [
                  {| cw.namespace :=
                       cloudWatchMetricNameSpace props +:+ "/" +:+
                       ruuviTagId props;
                     cw.metricName := "Humidity";
                     cw.statistic := "Average";
                     cw.period := cdk.minutes 5 |}
                ];
                cw.leftAnnotations := [
                  {| cw.value := 53; cw.color := "#ff0000";
                     cw.fill := cw.BELOW; cw.label := "Low" |};
                  {| cw.value := 75; cw.color := "#ff0000";
                     cw.fill := cw.ABOVE; cw.label := "High" |}
                ];
                cw.leftYAxis :=
                  {| cw.max := 85; cw.min := 45; cw.showUnits := false |};
                cw.legendPosition := cw.HIDDEN;
                cw.region := region this;
                cw.title := "Kosteus (%)";
                cw.width := 6;
                cw.height := 6 |} ]
         ]
       |}) in
  ret tt.

(** Synthesis: the constructor run in a fresh scope. *)
Definition synth (this : Stack) (props : RuuviTagMonitoringStackProps)
  : Scope :=
  snd (RuuviTagMonitoringStack this props []).

(** The instantiation of [bin/]: the stack as the application declares it.
    The region is given; the account is left to the caller's environment. *)
Definition appProps : RuuviTagMonitoringStackProps := {|
  thingName := "RaspberryPi";
  iotTopicPrefix := "ruuvitag";
  cloudWatchMetricNameSpace := "RuuviTag";
  ruuviTagId := "f3d619998f38"
|}.

Definition appStack (callerAccount : string) : Stack := {|
  stackName := "RuuviTagMonitoringStack";
  region := "eu-north-1";
  account := callerAccount
|}.

(** ** Reading a synthesized scope *)

(** The class a construct was declared with.  In the words of the
    specification: device identity, credential, secret, identity-to-credential
    attachment, access policy, policy-to-credential attachment, error log
    sink, execution role, routing rule, dashboard. *)
Inductive ResourceClass :=
| iot_CfnThing
| cr_AwsCustomResource
| secretsmanager_Secret
| iot_CfnThingPrincipalAttachment
| iot_CfnPolicy
| iot_CfnPolicyPrincipalAttachment
| logs_LogGroup
| iam_Role
| iot_CfnTopicRule
| cw_Dashboard.

#[global] Instance ResourceClass_eq_dec : EqDecision ResourceClass.
Proof. solve_decision. Defined.

Definition classOf (r : Resource) : ResourceClass :=
  match r with
  | IotThing _ => iot_CfnThing
  | CustomResource _ => cr_AwsCustomResource
  | SecretsManagerSecret _ => secretsmanager_Secret
  | IotThingPrincipalAttachment _ => iot_CfnThingPrincipalAttachment
  | IotPolicy _ => iot_CfnPolicy
  | IotPolicyPrincipalAttachment _ => iot_CfnPolicyPrincipalAttachment
  | LogsLogGroup _ => logs_LogGroup
  | IamRole _ => iam_Role
  | IotTopicRule _ => iot_CfnTopicRule
  | CloudWatchDashboard _ => cw_Dashboard
  end.

Definition declared (g : Scope) : list ResourceClass :=
  (fun c => classOf (resource c)) <$> g.

Definition countOf (k : ResourceClass) (g : Scope) : nat :=
  length (filter (fun k' => k' = k) (declared g)).

Definition allClasses : list ResourceClass :=
  [iot_CfnThing; cr_AwsCustomResource; secretsmanager_Secret;
   iot_CfnThingPrincipalAttachment; iot_CfnPolicy;
   iot_CfnPolicyPrincipalAttachment; logs_LogGroup; iam_Role;
   iot_CfnTopicRule; cw_Dashboard].

Definition topicRules (g : Scope) : list iot.CfnTopicRule :=
  omap (fun c => match resource c with
                 | IotTopicRule r => Some r
                 | _ => None
                 end) g.

Definition policies (g : Scope) : list iot.CfnPolicy :=
  omap (fun c => match resource c with
                 | IotPolicy r => Some r
                 | _ => None
                 end) g.

Definition roles (g : Scope) : list iam.Role :=
  omap (fun c => match resource c with
                 | IamRole r => Some r
                 | _ => None
                 end) g.

Definition customResources (g : Scope) : list cr.AwsCustomResource :=
  omap (fun c => match resource c with
                 | CustomResource r => Some r
                 | _ => None
                 end) g.

Definition dashboards (g : Scope) : list cw.Dashboard :=
  omap (fun c => match resource c with
                 | CloudWatchDashboard r => Some r
                 | _ => None
                 end) g.

(** Every action of a rule: the forwarding actions and the error action. *)
Definition ruleActions (r : iot.CfnTopicRule) : list iot.ActionProperty :=
  iot.actions (iot.topicRulePayload r) ++
  [iot.errorAction (iot.topicRulePayload r)].

Definition metricActions (g : Scope) : list iot.CloudwatchMetricAction :=
  omap (fun a => match a with
                 | iot.cloudwatchMetric m => Some m
                 | iot.cloudwatchLogs _ => None
                 end)
       (flat_map ruleActions (topicRules g)).

(** The series the rules publish and the series the dashboards draw, each
    as (namespace, metric name). *)
Definition publishedSeries (g : Scope) : list (string * string) :=
  (fun m => (iot.metricNamespace m, iot.metricName m)) <$> metricActions g.

Definition dashboardMetrics (g : Scope) : list cw.Metric :=
  flat_map (fun d => flat_map (flat_map cw.left) (cw.widgets d))
           (dashboards g).

Definition displayedSeries (g : Scope) : list (string * string) :=
  (fun m => (cw.namespace m, cw.metricName m)) <$> dashboardMetrics g.

Definition hasAction (name : string) (st : iot.PolicyStatement) : bool :=
  existsb (String.eqb name) (iot.Action st).

(** The resources of the access policies' statements that allow
    [iot:Publish]. *)
Definition publishResources (g : Scope) : list text :=
  flat_map (fun p =>
              flat_map iot.Resource
                (List.filter (hasAction "iot:Publish")
                   (iot.Statement (iot.policyDocument p))))
           (policies g).

Definition inlineStatements (g : Scope)
  : list (string * list iam.PolicyStatement) :=
  flat_map (fun r => (fun np => (np.1, iam.statements np.2))
                       <$> iam.inlinePolicies r)
           (roles g).

(** The two wildcard characters of a policy resource. *)
Definition isWildcard (c : Ascii.ascii) : bool :=
  Ascii.eqb c "*"%char || Ascii.eqb c "?"%char.

Fixpoint wildcardFree (s : string) : bool :=
  match s with
  | EmptyString => true
  | String c rest => negb (isWildcard c) && wildcardFree rest
  end.

(** *** Ordering edges *)

Definition actionTargets (a : iot.ActionProperty) : list handle :=
  match a with
  | iot.cloudwatchMetric m => textTargets (iot.roleArn m)
  | iot.cloudwatchLogs l =>
      textTargets (iot.logGroupName l) ++ textTargets (iot.logsRoleArn l)
  end.

(** The constructs whose deploy-time values a resource's properties use. *)
Definition resourceTargets (r : Resource) : list handle :=
  match r with
  | IotThing _ => []
  | CustomResource _ => []
  | SecretsManagerSecret x =>
      flat_map (fun kv => match kv.2 with
                          | cdk.unsafePlainText t => textTargets t
                          end)
               (secretsmanager.secretObjectValue x)
  | IotThingPrincipalAttachment x => textTargets (iot.principal x)
  | IotPolicy x =>
      flat_map (fun st => flat_map textTargets (iot.Resource st))
               (iot.Statement (iot.policyDocument x))
  | IotPolicyPrincipalAttachment x => textTargets (iot.policyPrincipal x)
  | LogsLogGroup _ => []
  | IamRole _ => []
  | IotTopicRule x => flat_map actionTargets (ruleActions x)
  | CloudWatchDashboard _ => []
  end.

Definition classAt (g : Scope) (h : handle) : option ResourceClass :=
  (fun c => classOf (resource c)) <$> g !! h.

(** Edges (dependent, prerequisite) between declarations, read through
    [out]. *)
Definition edgesFrom (out : Construct -> list handle) (g : Scope)
  : list (ResourceClass * ResourceClass) :=
  flat_map (fun c => omap (fun h => pair (classOf (resource c)) <$> classAt g h)
                          (out c)) g.

(** Edges added with [addDependency]. *)
Definition explicitEdges (g : Scope) : list (ResourceClass * ResourceClass) :=
  edgesFrom dependsOn g.

(** Edges that exist only because a property uses another construct's
    value. *)
Definition referenceEdges (g : Scope) : list (ResourceClass * ResourceClass) :=
  edgesFrom (fun c => resourceTargets (resource c)) g.

(** The declarations listed as prerequisites by the constructs of class
    [k]. *)
Definition prerequisitesOf (k : ResourceClass) (g : Scope)
  : list (list (option Resource)) :=
  (fun c => (fun h => resource <$> g !! h) <$> dependsOn c)
    <$> filter (fun c => classOf (resource c) = k) g.

(** *** The credential's life cycle

    The provider framework runs [onCreate], keeps as physical resource id
    what [physicalResourceId] designates in the (flattened) response, and on
    teardown runs [onDelete] with every [PhysicalResourceIdReference]
    replaced by the id it kept. *)

Definition capturedId (call : cr.AwsSdkCall) (response : gmap string string)
  : option string :=
  match cr.physicalResourceId call with
  | Some (cr.fromResponse path) => response !! path
  | None => None
  end.

Definition resolveParameter (physicalId : string) (v : cr.SdkParameter)
  : cr.SdkParameter :=
  match v with
  | cr.PhysicalResourceIdReference => cr.PString physicalId
  | other => other
  end.

(** The call sent at teardown: service, action and parameters. *)
Definition deleteCall (r : cr.AwsCustomResource) (physicalId : string)
  : string * string * list (string * cr.SdkParameter) :=
  (cr.service (cr.onDelete r), cr.action (cr.onDelete r),
   (fun kv => (kv.1, resolveParameter physicalId kv.2))
     <$> cr.parameters (cr.onDelete r)).

(** Teardown of a resource created with [response]; nothing is determined
    when no id was captured. *)
Definition teardown (r : cr.AwsCustomResource) (response : gmap string string)
  : option (string * string * list (string * cr.SdkParameter)) :=
  deleteCall r <$> capturedId (cr.onCreate r) response.

(** The filter expression that selects [fields] from [topic]. *)
Definition selectFrom (fields : list string) (topic : string) : string :=
  "SELECT " +:+ String.concat "," fields +:+ " FROM '" +:+ topic +:+ "'".

(** ** Further readings of a scope *)

(** Every text among a resource's properties. *)
Definition resourceTexts (r : Resource) : list text :=
  match r with
  | IotThing _ => []
  | CustomResource _ => []
  | SecretsManagerSecret x =>
      (fun kv => match kv.2 with cdk.unsafePlainText t => t end)
        <$> secretsmanager.secretObjectValue x
  | IotThingPrincipalAttachment x => [iot.principal x]
  | IotPolicy x => flat_map iot.Resource (iot.Statement (iot.policyDocument x))
  | IotPolicyPrincipalAttachment x => [iot.policyPrincipal x]
  | LogsLogGroup _ => []
  | IamRole _ => []
  | IotTopicRule x =>
      flat_map (fun a => match a with
                         | iot.cloudwatchMetric m => [iot.roleArn m]
                         | iot.cloudwatchLogs l =>
                             [iot.logGroupName l; iot.logsRoleArn l]
                         end) (ruleActions x)
  | CloudWatchDashboard _ => []
  end.

Definition pieceResponse (x : piece) : option (handle * string) :=
  match x with
  | ResponseField h path => Some (h, path)
  | _ => None
  end.

(** The response fields a resource takes with [getResponseField], each with
    the construct asked. *)
Definition responseReads (r : Resource) : list (handle * string) :=
  flat_map (omap pieceResponse) (resourceTexts r).

Definition allResponseReads (g : Scope) : list (handle * string) :=
  flat_map (fun c => responseReads (resource c)) g.

(** The classes of the declarations that read the response field [path]. *)
Definition readersOf (path : string) (g : Scope) : list ResourceClass :=
  (fun c => classOf (resource c))
    <$> List.filter
          (fun c => existsb (fun hp => String.eqb hp.2 path)
                            (responseReads (resource c))) g.

(** A text with each reference resolved to the class of its target. *)
Definition describeText (g : Scope) (t : text)
  : list (string + option ResourceClass * string) :=
  (fun x => match x with
            | Lit s => inl s
            | Attribute h name => inr (classAt g h, name)
            | ResponseField h path => inr (classAt g h, path)
            end) <$> t.

Definition things (g : Scope) : list iot.CfnThing :=
  omap (fun c => match resource c with
                 | IotThing r => Some r
                 | _ => None
                 end) g.

Definition secrets (g : Scope) : list secretsmanager.Secret :=
  omap (fun c => match resource c with
                 | SecretsManagerSecret r => Some r
                 | _ => None
                 end) g.

Definition policyStatements (g : Scope) : list iot.PolicyStatement :=
  flat_map (fun p => iot.Statement (iot.policyDocument p)) (policies g).

Definition thingAttachments (g : Scope)
  : list iot.CfnThingPrincipalAttachment :=
  omap (fun c => match resource c with
                 | IotThingPrincipalAttachment r => Some r
                 | _ => None
                 end) g.

Definition policyAttachments (g : Scope)
  : list iot.CfnPolicyPrincipalAttachment :=
  omap (fun c => match resource c with
                 | IotPolicyPrincipalAttachment r => Some r
                 | _ => None
                 end) g.

(** *** What a rule's actions need from their role *)

Definition grantedWrite (g : Scope) (role logGroup : handle) : bool :=
  match g !! role with
  | Some c => existsb (fun x => match x with
                                | WriteTo l => Nat.eqb l logGroup
                                end) (grants c)
  | None => false
  end.

Definition allowsOnAll (action : string) (st : iam.PolicyStatement) : bool :=
  existsb (String.eqb action) (iam.actions st)
  && existsb (String.eqb "*") (iam.resources st).

(** The construct at [role] is a role that [service] may assume and whose
    inline policies allow [action] on every resource. *)
Definition roleAllows (g : Scope) (service action : string) (role : handle)
  : bool :=
  match resource <$> g !! role with
  | Some (IamRole x) =>
      match iam.assumedBy x with
      | iam.ServicePrincipal s => String.eqb s service
      end
      && existsb (fun np => existsb (allowsOnAll action) (iam.statements np.2))
                 (iam.inlinePolicies x)
  | _ => false
  end.

Definition isLogGroup (g : Scope) (h : handle) : bool :=
  match resource <$> g !! h with
  | Some (LogsLogGroup _) => true
  | _ => false
  end.

(** A metric action runs under one role, which the message broker may assume
    and which may put metric data; a logs action names one log group of the
    scope and runs under one role that was granted write access to it. *)
Definition actionPermitted (g : Scope) (a : iot.ActionProperty) : bool :=
  match a with
  | iot.cloudwatchMetric m =>
      match textTargets (iot.roleArn m) with
      | [role] =>
          roleAllows g "iot.amazonaws.com" "cloudwatch:PutMetricData" role
      | _ => false
      end
  | iot.cloudwatchLogs l =>
      match textTargets (iot.logGroupName l), textTargets (iot.logsRoleArn l)
      with
      | [logGroup], [role] =>
          isLogGroup g logGroup && grantedWrite g role logGroup
      | _, _ => false
      end
  end.

(** *** Edges by position *)

Definition grantTargets (c : Construct) : list handle :=
  (fun x => match x with WriteTo l => l end) <$> grants c.

(** Every construct that [c] points to, by prerequisite, by property or by
    grant. *)
Definition allTargets (c : Construct) : list handle :=
  dependsOn c ++ resourceTargets (resource c) ++ grantTargets c.

(** *** Names *)

(** The construct ids the constructor writes out in full. *)
Definition fixedIds : list string :=
  ["IotThingKeysAndCert"; "IotThingKeysAndCertSecret";
   "IotThingPrincipalAttachment"; "IotThingPolicyPrincipalAttachment";
   "IotRuleErrorLog"; "IotRuleRole"; "Dashboard"].

(** The topic [topic] of the stack's region and account, as a resource. *)
Definition topicArn (this : Stack) (topic : string) : string :=
  "arn:aws:iot:" +:+ region this +:+ ":" +:+ account this +:+ ":topic/"
    +:+ topic.

(** The substitution template that stands for the message field [field]. *)
Definition substitution (field : string) : string := "${" +:+ field +:+ "}".

(** The ids passed to the declarations of routing rules. *)
Definition ruleIds (g : Scope) : list string :=
  constructId
    <$> filter (fun c => classOf (resource c) = iot_CfnTopicRule) g.

(** ** The construct library's side of a synthesis

    Every [new] hands its declaration to the construct library.  The library
    may refuse a declaration by throwing, and then the constructor produces
    nothing; and it may put constructs of its own into the stack's scope on
    behalf of a declaration.  Its code is not in the repository, so both are
    parameters of a synthesis. *)
Record Library := {
  (** whether the library lets every one of these declarations through *)
  accepts : Scope -> bool;
  (** the ids of the constructs the library adds to the scope for them *)
  provides : Scope -> list string
}.

(** What the stack's scope holds after a synthesis that did not throw. *)
Record Synthesized := {
  declarations : Scope;
  provided : list string
}.

(** A throw in any declaration leaves nothing of the constructor's work, so
    the library's verdict is taken once, on all declarations. *)
Definition synthesize (lib : Library) (this : Stack)
  (props : RuuviTagMonitoringStackProps) : option Synthesized :=
  let g := synth this props in
  if accepts lib g
  then Some {| declarations := g; provided := provides lib g |}
  else None.

(** The id under which the library stores a construct: each path separator
    is written as two dashes. *)
Fixpoint storedId (id : string) : string :=
  match id with
  | EmptyString => EmptyString
  | String c rest =>
      if Ascii.eqb c "/"%char
      then String "-"%char (String "-"%char (storedId rest))
      else String c (storedId rest)
  end.

(** The library's check of ids, one declaration after the other: an id is
    refused when it is empty or when the scope already stores it. *)
Fixpoint idsAccepted (stored ids : list string) : bool :=
  match ids with
  | [] => true
  | id :: rest =>
      negb (String.eqb (storedId id) "")
      && negb (existsb (String.eqb (storedId id)) stored)
      && idsAccepted (storedId id :: stored) rest
  end.

(** A library that lets through no declaration with a refused id; it may
    refuse more. *)
Definition refusesBadIds (lib : Library) : Prop :=
  forall g : Scope,
    accepts lib g = true -> idsAccepted [] (constructId <$> g) = true.

(** A library that checks ids and nothing else, and that adds for each
    custom resource its provider function and the log retention function. *)
Definition idChecks : Library := {|
  accepts g := idsAccepted [] (constructId <$> g);
  provides g :=
    flat_map (fun _ => ["AWS679f53fac002430cb0da5b7982bd2287";
                        "LogRetentionaae0aa3c5b4d4f87b02d85b201efdd8a"])
             (customResources g)
|}.

(** * Properties *)

Example synth_app_sql :
  (fun r => iot.sql (iot.topicRulePayload r))
    <$> topicRules (synth (appStack "123456789012") appProps)
  = ["SELECT temperature,humidity FROM 'ruuvitag/f3d619998f38'"].
Proof. reflexivity. Qed.

Example synth_app_dashboard_namespace :
  cw.namespace <$> dashboardMetrics (synth (appStack "123456789012") appProps)
  = ["RuuviTag/f3d619998f38"].
Proof. reflexivity. Qed.

Example synth_app_explicit_edges :
  explicitEdges (synth (appStack "123456789012") appProps)
  = [(iot_CfnThingPrincipalAttachment, iot_CfnThing)].
Proof. reflexivity. Qed.

Example synth_app_published_series :
  publishedSeries (synth (appStack "123456789012") appProps)
  = [("RuuviTag/f3d619998f38", "Temperature");
     ("RuuviTag/f3d619998f38", "Humidity")].
Proof. reflexivity. Qed.

Example teardown_after_creation :
  (fun r => teardown r {["certificateId" := "9f2c"; "certificateArn" := "arn"]})
    <$> customResources (synth (appStack "123456789012") appProps)
  = [Some ("@aws-sdk/client-iot", "DeleteCertificateCommand",
           [("certificateId", cr.PString "9f2c")])].
Proof. reflexivity. Qed.

Example teardown_without_captured_id :
  (fun r => teardown r ∅)
    <$> customResources (synth (appStack "123456789012") appProps)
  = [None].
Proof. reflexivity. Qed.

(** *** Strings *)

Lemma append_cons (x : ascii) (a b : string) :
  String x a +:+ b = String x (a +:+ b).
Proof. reflexivity. Qed.

Lemma append_assoc (a b c : string) : (a +:+ b) +:+ c = a +:+ b +:+ c.
Proof.
  induction a as [|x a IH].
  - reflexivity.
  - rewrite !append_cons. f_equal. exact IH.
Qed.

Lemma wildcardFree_append (a b : string) :
  wildcardFree (a +:+ b) = wildcardFree a && wildcardFree b.
Proof.
  induction a as [|x a IH].
  - reflexivity.
  - rewrite append_cons. simpl. rewrite IH. apply andb_assoc.
Qed.

(** *** The declarations *)

(** The ids under which the constructs join the scope. *)
Lemma synth_construct_ids
  (this : Stack) (props : RuuviTagMonitoringStackProps) :
  constructId <$> synth this props
  = [thingName props; "IotThingKeysAndCert"; "IotThingKeysAndCertSecret";
     "IotThingPrincipalAttachment"; thingName props +:+ "Policy";
     "IotThingPolicyPrincipalAttachment"; "IotRuleErrorLog"; "IotRuleRole";
     "IotRule_" +:+ ruuviTagId props; "Dashboard"].
Proof. reflexivity. Qed.

(** [grantWrite] reaches the execution role and no other construct. *)
Lemma synth_grants
  (this : Stack) (props : RuuviTagMonitoringStackProps) :
  (fun c => (fun g => match g with
                      | WriteTo h => classAt (synth this props) h
                      end) <$> grants c) <$> synth this props
  = [[]; []; []; []; []; []; []; [Some logs_LogGroup]; []; []].
Proof. reflexivity. Qed.

(** C1, as stated: the scope of the application's own stack does not hold
    nine declarations. *)
Lemma synth_app_not_nine_declarations :
  length (synth (appStack "123456789012") appProps) <> 9.
Proof. discriminate. Qed.

(** C1, amended: for a valid input, one whose declarations the library
    lets through, synthesis produces the constructor's ten declarations, in
    this order: the device identity, the credential, the secret, the
    identity-to-credential attachment, the access policy, the
    policy-to-credential attachment, the error log sink, the execution role,
    the routing rule and the dashboard; exactly one of each.  What the
    library adds to the scope of its own is beside them. *)
Theorem valid_synthesis_declares_ten
  (lib : Library) (this : Stack) (props : RuuviTagMonitoringStackProps) :
  accepts lib (synth this props) = true ->
  exists r : Synthesized,
    synthesize lib this props = Some r
    /\ declared (declarations r) = allClasses
    /\ (fun k => countOf k (declarations r)) <$> allClasses
       = [1; 1; 1; 1; 1; 1; 1; 1; 1; 1].
Proof.
  intros Hvalid. unfold synthesize. rewrite Hvalid.
  eexists. split; [reflexivity|]. split; reflexivity.
Qed.

Lemma valid_synthesis_declares_ten_app :
  accepts idChecks (synth (appStack "123456789012") appProps) = true
  /\ exists r : Synthesized,
       synthesize idChecks (appStack "123456789012") appProps = Some r
       /\ declared (declarations r) = allClasses
       /\ (fun k => countOf k (declarations r)) <$> allClasses
          = [1; 1; 1; 1; 1; 1; 1; 1; 1; 1].
Proof.
  split; [reflexivity|].
  apply (valid_synthesis_declares_ten idChecks); reflexivity.
Defined.

(** *** The routing rule *)

(** C2: the one routing rule's filter expression is
    [SELECT temperature,humidity FROM '{iotTopicPrefix}/{ruuviTagId}']: it
    selects the two fields temperature and humidity from that topic. *)
Theorem rule_sql_selects_temperature_humidity
  (this : Stack) (props : RuuviTagMonitoringStackProps) :
  (fun r => iot.sql (iot.topicRulePayload r)) <$> topicRules (synth this props)
  = ["SELECT temperature,humidity FROM '" +:+ iotTopicPrefix props +:+ "/"
       +:+ ruuviTagId props +:+ "'"]
  /\ (fun r => iot.sql (iot.topicRulePayload r))
       <$> topicRules (synth this props)
     = [selectFrom ["temperature"; "humidity"]
          (iotTopicPrefix props +:+ "/" +:+ ruuviTagId props)].
Proof.
  split; [reflexivity|].
  unfold selectFrom. rewrite !append_assoc. reflexivity.
Qed.

(** C3: the namespace of both metric actions of the routing rule and the
    namespace of the dashboard's metric are the same string,
    [{cloudWatchMetricNameSpace}/{ruuviTagId}]. *)
Theorem rule_and_dashboard_share_namespace
  (this : Stack) (props : RuuviTagMonitoringStackProps) :
  let ns := cloudWatchMetricNameSpace props +:+ "/" +:+ ruuviTagId props in
  iot.metricNamespace <$> metricActions (synth this props) = [ns; ns]
  /\ cw.namespace <$> dashboardMetrics (synth this props) = [ns]
  /\ Forall (fun a =>
               Forall (eq a)
                 (cw.namespace <$> dashboardMetrics (synth this props)))
            (iot.metricNamespace <$> metricActions (synth this props)).
Proof.
  intros ns. split; [reflexivity|]. split; [reflexivity|].
  repeat constructor.
Qed.

(** C9: the dashboard draws one series, Humidity; the rule also publishes
    Temperature to the same namespace, and no widget draws it. *)
Theorem dashboard_draws_humidity_only
  (this : Stack) (props : RuuviTagMonitoringStackProps) :
  let ns := cloudWatchMetricNameSpace props +:+ "/" +:+ ruuviTagId props in
  displayedSeries (synth this props) = [(ns, "Humidity")]
  /\ publishedSeries (synth this props)
     = [(ns, "Temperature"); (ns, "Humidity")]
  /\ existsb (fun m => String.eqb (cw.metricName m) "Temperature")
       (dashboardMetrics (synth this props)) = false.
Proof. repeat split. Qed.

(** *** Permissions *)

(** C4: the publish statement of the access policy names one resource,
    [arn:aws:iot:{region}:{account}:topic/{iotTopicPrefix}/*]; the prefix is
    a path segment of it, and for a region and an account that hold no
    wildcard, what stands above [{iotTopicPrefix}/] holds none either. *)
Theorem publish_arn_confined_to_prefix
  (this : Stack) (props : RuuviTagMonitoringStackProps) :
  wildcardFree (region this) = true ->
  wildcardFree (account this) = true ->
  let above :=
    "arn:aws:iot:" +:+ region this +:+ ":" +:+ account this +:+ ":topic" in
  publishResources (synth this props)
  = [[Lit ("arn:aws:iot:" +:+ region this +:+ ":" +:+ account this +:+
           ":topic/" +:+ iotTopicPrefix props +:+ "/*")]]
  /\ publishResources (synth this props)
     = [[Lit ((above +:+ "/") +:+ iotTopicPrefix props +:+ "/" +:+ "*")]]
  /\ wildcardFree (above +:+ "/") = true.
Proof.
  intros Hregion Haccount above. subst above.
  split; [reflexivity|]. split.
  - rewrite !append_assoc. reflexivity.
  - rewrite !wildcardFree_append, Hregion, Haccount. reflexivity.
Qed.

Lemma publish_arn_confined_to_prefix_app :
  wildcardFree (region (appStack "123456789012")) = true
  /\ wildcardFree (account (appStack "123456789012")) = true
  /\ publishResources (synth (appStack "123456789012") appProps)
     = [[Lit "arn:aws:iot:eu-north-1:123456789012:topic/ruuvitag/*"]]
  /\ wildcardFree "arn:aws:iot:eu-north-1:123456789012:topic/" = true.
Proof.
  split; [reflexivity|]. split; [reflexivity|].
  destruct (publish_arn_confined_to_prefix (appStack "123456789012") appProps)
    as (Harn & _ & Habove); [reflexivity | reflexivity |].
  split; [exact Harn | exact Habove].
Defined.

(** C10: the execution role's inline policy allows
    [cloudwatch:PutMetricData] on the resource [*], whatever the inputs. *)
Theorem role_metrics_permission_all_resources
  (this : Stack) (props : RuuviTagMonitoringStackProps) :
  inlineStatements (synth this props)
  = [("putMetricsPolicy",
      [{| iam.actions := ["cloudwatch:PutMetricData"];
          iam.resources := ["*"] |}])].
Proof. reflexivity. Qed.

(** *** Ordering *)

(** C5, as stated: in the application's own stack the three orderings are
    not all explicit edges. *)
Lemma synth_app_orderings_not_explicit :
  ~ ((iot_CfnThingPrincipalAttachment, cr_AwsCustomResource)
       ∈ explicitEdges (synth (appStack "123456789012") appProps)
     /\ (iot_CfnTopicRule, logs_LogGroup)
          ∈ explicitEdges (synth (appStack "123456789012") appProps)
     /\ (iot_CfnTopicRule, iam_Role)
          ∈ explicitEdges (synth (appStack "123456789012") appProps)).
Proof.
  rewrite synth_app_explicit_edges. intros (H & _).
  apply list_elem_of_singleton in H. discriminate H.
Qed.

(** C5, amended: the only explicit edge makes the device identity a
    prerequisite of the identity attachment.  The credential precedes the
    attachment, and the log sink and the execution role precede the routing
    rule, through the values the later declaration takes from the earlier
    one: the attachment's principal, the rule's role ARNs and log group
    name. *)
Theorem orderings_carried_by_references
  (this : Stack) (props : RuuviTagMonitoringStackProps) :
  explicitEdges (synth this props)
  = [(iot_CfnThingPrincipalAttachment, iot_CfnThing)]
  /\ referenceEdges (synth this props)
     = [(secretsmanager_Secret, cr_AwsCustomResource);
        (secretsmanager_Secret, cr_AwsCustomResource);
        (iot_CfnThingPrincipalAttachment, cr_AwsCustomResource);
        (iot_CfnPolicy, iot_CfnThing);
        (iot_CfnPolicyPrincipalAttachment, cr_AwsCustomResource);
        (iot_CfnTopicRule, iam_Role);
        (iot_CfnTopicRule, iam_Role);
        (iot_CfnTopicRule, logs_LogGroup);
        (iot_CfnTopicRule, iam_Role)].
Proof. split; reflexivity. Qed.

(** C6: the identity attachment lists one prerequisite, the device
    identity declared for [thingName]. *)
Theorem attachment_requires_thing
  (this : Stack) (props : RuuviTagMonitoringStackProps) :
  prerequisitesOf iot_CfnThingPrincipalAttachment (synth this props)
  = [[Some (IotThing {| iot.thingName := thingName props |})]].
Proof. reflexivity. Qed.

(** *** The credential *)

(** C7: the credential's physical id is the [certificateId] field of the
    creation response, and the delete call carries that id, and nothing
    else, as its [certificateId] parameter. *)
Theorem credential_teardown_keyed_by_captured_id
  (this : Stack) (props : RuuviTagMonitoringStackProps)
  (response : gmap string string) :
  (fun r => (cr.physicalResourceId (cr.onCreate r),
             cr.parameters (cr.onDelete r)))
    <$> customResources (synth this props)
  = [(Some (cr.fromResponse "certificateId"),
      [("certificateId", cr.PhysicalResourceIdReference)])]
  /\ (fun r => capturedId (cr.onCreate r) response)
       <$> customResources (synth this props)
     = [response !! "certificateId"]
  /\ (fun r => teardown r response) <$> customResources (synth this props)
     = [(fun certificateId =>
           ("@aws-sdk/client-iot", "DeleteCertificateCommand",
            [("certificateId", cr.PString certificateId)]))
          <$> response !! "certificateId"].
Proof. repeat split. Qed.

(** * Further properties of the constructor *)

Lemma prefix_append (a b : string) : String.prefix a (a +:+ b) = true.
Proof.
  induction a as [|x a IH].
  - destruct b; reflexivity.
  - rewrite append_cons. simpl. destruct (ascii_dec x x); [exact IH | done].
Qed.

Lemma synth_sql
  (this : Stack) (props : RuuviTagMonitoringStackProps) :
  (fun r => iot.sql (iot.topicRulePayload r)) <$> topicRules (synth this props)
  = [selectFrom ["temperature"; "humidity"]
       (iotTopicPrefix props +:+ "/" +:+ ruuviTagId props)].
Proof. unfold selectFrom. rewrite !append_assoc. reflexivity. Qed.

(** *** The credential's response *)

(** X1: [getResponseField] is only ever asked of the credential, only for
    paths that its creation call lists in [outputPaths], and every listed
    path is asked for. *)
Theorem response_fields_read_are_requested
  (this : Stack) (props : RuuviTagMonitoringStackProps) :
  let g := synth this props in
  let paths := ["certificateArn"; "certificatePem"; "keyPair.PrivateKey"] in
  (fun r => cr.outputPaths (cr.onCreate r)) <$> customResources g
  = [Some paths]
  /\ Forall (fun hp => classAt g hp.1 = Some cr_AwsCustomResource
                       /\ hp.2 ∈ paths)
            (allResponseReads g)
  /\ Forall (fun path => path ∈ (allResponseReads g).*2) paths.
Proof.
  intros g paths. split; [reflexivity|].
  change (allResponseReads g)
    with [(1, "certificatePem"); (1, "keyPair.PrivateKey");
          (1, "certificateArn"); (1, "certificateArn")].
  split.
  - repeat (apply Forall_cons; split; [split; [reflexivity|] |]);
      [.. | apply Forall_nil]; subst paths; repeat constructor.
  - subst paths. repeat constructor.
Qed.

(** X2: the private key and the certificate body are read by the secret and
    by nothing else, which stores them under [privateKey] and
    [certificatePem]; the two attachments read the certificate's ARN only. *)
Theorem private_key_reaches_secret_only
  (this : Stack) (props : RuuviTagMonitoringStackProps) :
  let g := synth this props in
  readersOf "keyPair.PrivateKey" g = [secretsmanager_Secret]
  /\ readersOf "certificatePem" g = [secretsmanager_Secret]
  /\ readersOf "certificateArn" g
     = [iot_CfnThingPrincipalAttachment; iot_CfnPolicyPrincipalAttachment]
  /\ (fun x => (fun kv => (kv.1, match kv.2 with
                                  | cdk.unsafePlainText t => describeText g t
                                  end))
                 <$> secretsmanager.secretObjectValue x) <$> secrets g
     = [[("certificatePem",
          [inr (Some cr_AwsCustomResource, "certificatePem")]);
         ("privateKey",
          [inr (Some cr_AwsCustomResource, "keyPair.PrivateKey")])]].
Proof. repeat split. Qed.

(** *** The access policy and its attachment *)

(** X3: the policy attachment names the declared policy,
    [{thingName}Policy], and binds it to the principal of the identity
    attachment, which names the declared thing; its only edge goes to the
    credential: nothing orders it after the policy it names. *)
Theorem policy_attachment_names_declared_policy
  (this : Stack) (props : RuuviTagMonitoringStackProps) :
  let g := synth this props in
  iot.attachedPolicyName <$> policyAttachments g
  = iot.policyName <$> policies g
  /\ iot.policyName <$> policies g = [Some (thingName props +:+ "Policy")]
  /\ iot.policyPrincipal <$> policyAttachments g
     = iot.principal <$> thingAttachments g
  /\ iot.attachedThingName <$> thingAttachments g
     = iot.thingName <$> things g
  /\ filter (fun e => e.1 = iot_CfnPolicyPrincipalAttachment)
       (explicitEdges g ++ referenceEdges g)
     = [(iot_CfnPolicyPrincipalAttachment, cr_AwsCustomResource)].
Proof. repeat split. Qed.

(** X4: the access policy has two statements, both [Allow]: one for
    [iot:Publish], one for [iot:Connect], and no other action; the connect
    resource is the client ARN of the stack's region and account followed by
    the reference of the declared thing. *)
Theorem access_policy_allows_publish_and_connect_only
  (this : Stack) (props : RuuviTagMonitoringStackProps) :
  let g := synth this props in
  (fun st => (iot.Effect st, iot.Action st)) <$> policyStatements g
  = [("Allow", ["iot:Publish"]); ("Allow", ["iot:Connect"])]
  /\ describeText g
       <$> flat_map iot.Resource
             (List.filter (hasAction "iot:Connect") (policyStatements g))
     = [[inl ("arn:aws:iot:" +:+ region this +:+ ":" +:+ account this +:+
              ":client/");
         inr (Some iot_CfnThing, "ref")]].
Proof. repeat split. Qed.

(** *** The routing rule *)

(** X5: each of the rule's three actions runs under a role that holds what
    the action needs: the metric actions a role that [iot.amazonaws.com] may
    assume and that may put metric data, the error action a role that was
    granted write access to the very log group the action names. *)
Theorem rule_actions_have_their_permissions
  (this : Stack) (props : RuuviTagMonitoringStackProps) :
  let g := synth this props in
  actionPermitted g <$> flat_map ruleActions (topicRules g)
  = [true; true; true].
Proof. reflexivity. Qed.

(** X6: the metric actions take their values from exactly the fields the
    filter expression selects, in the same order: Temperature from
    [temperature], Humidity from [humidity]. *)
Theorem metric_values_are_selected_fields
  (this : Stack) (props : RuuviTagMonitoringStackProps) :
  let g := synth this props in
  let fields := ["temperature"; "humidity"] in
  (fun r => iot.sql (iot.topicRulePayload r)) <$> topicRules g
  = [selectFrom fields (iotTopicPrefix props +:+ "/" +:+ ruuviTagId props)]
  /\ iot.metricValue <$> metricActions g = substitution <$> fields
  /\ iot.metricName <$> metricActions g = ["Temperature"; "Humidity"].
Proof.
  intros g fields. split; [apply synth_sql|]. split; reflexivity.
Qed.

(** X7: the topic the rule reads from lies under the resource the access
    policy lets the device publish to: its ARN is the granted resource with
    the final wildcard replaced by [ruuviTagId]. *)
Theorem rule_topic_within_publish_grant
  (this : Stack) (props : RuuviTagMonitoringStackProps) :
  let g := synth this props in
  let topic := iotTopicPrefix props +:+ "/" +:+ ruuviTagId props in
  let granted := topicArn this (iotTopicPrefix props +:+ "/") in
  (fun r => iot.sql (iot.topicRulePayload r)) <$> topicRules g
  = [selectFrom ["temperature"; "humidity"] topic]
  /\ publishResources g = [[Lit (granted +:+ "*")]]
  /\ topicArn this topic = granted +:+ ruuviTagId props
  /\ String.prefix granted (topicArn this topic) = true.
Proof.
  intros g topic granted.
  assert (Htopic : topicArn this topic = granted +:+ ruuviTagId props).
  { subst topic granted. unfold topicArn. rewrite !append_assoc.
    reflexivity. }
  split; [apply synth_sql|]. split.
  - subst granted. unfold topicArn. rewrite !append_assoc. reflexivity.
  - split; [exact Htopic|]. rewrite Htopic. apply prefix_append.
Qed.

(** *** Declaration order *)

(** X8: whatever a declaration points to, by prerequisite, by property
    reference or by grant, was declared before it. *)
Theorem references_point_backwards
  (this : Stack) (props : RuuviTagMonitoringStackProps)
  (i : nat) (c : Construct) (h : handle) :
  synth this props !! i = Some c -> h ∈ allTargets c -> h < i.
Proof.
  intros Hc Hh.
  assert (Hall : Forall (fun ic => Forall (fun h => h < ic.1)
                                          (allTargets ic.2))
                        (imap pair (synth this props))).
  { repeat constructor. }
  rewrite Forall_lookup in Hall.
  specialize (Hall i (i, c)).
  rewrite list_lookup_imap in Hall.
  specialize (Hall (f_equal (fmap (pair i)) Hc)). rewrite Forall_forall in Hall.
  exact (Hall h Hh).
Qed.

Lemma references_point_backwards_app :
  exists c : Construct,
    synth (appStack "123456789012") appProps !! 8 = Some c
    /\ (6 ∈ allTargets c)
    /\ 6 < 8.
Proof.
  eexists. split; [reflexivity|].
  assert (Hin : 6 ∈ [7; 7; 6; 7]) by repeat constructor.
  split; [exact Hin|].
  exact (references_point_backwards (appStack "123456789012") appProps
           8 _ 6 eq_refl Hin).
Defined.

(** *** Names *)

Lemma list_ascii_append (a b : string) :
  String.list_ascii_of_string (a +:+ b)
  = String.list_ascii_of_string a ++ String.list_ascii_of_string b.
Proof.
  induction a as [|x a IH].
  - reflexivity.
  - rewrite append_cons. simpl. now rewrite IH.
Qed.

Lemma list_ascii_inj (a b : string) :
  String.list_ascii_of_string a = String.list_ascii_of_string b -> a = b.
Proof.
  intros E. rewrite <- (String.string_of_list_ascii_of_string a),
              <- (String.string_of_list_ascii_of_string b).
  now rewrite E.
Qed.

Lemma append_cancel_r (a b c : string) : a +:+ c = b +:+ c -> a = b.
Proof.
  intros E. apply list_ascii_inj.
  apply (f_equal String.list_ascii_of_string) in E.
  rewrite !list_ascii_append in E.
  exact (app_inv_tail _ _ _ E).
Qed.

Lemma append_self_nil (a b : string) : a = a +:+ b -> b = EmptyString.
Proof.
  induction a as [|x a IH].
  - intros E. symmetry. exact E.
  - rewrite append_cons. intros E. injection E as E. exact (IH E).
Qed.

(** A name that ends in [Policy] is none of the ids written out in full. *)
Lemma Policy_suffix_not_fixed (a k : string) :
  k ∈ fixedIds -> a +:+ "Policy" <> k.
Proof.
  intros Hk E. apply (f_equal String.list_ascii_of_string) in E.
  rewrite list_ascii_append in E. apply (f_equal (@rev ascii)) in E.
  rewrite rev_app_distr in E.
  unfold fixedIds in Hk.
  repeat (apply elem_of_cons in Hk as [->|Hk]; [discriminate E|]).
  now apply elem_of_nil in Hk.
Qed.

Ltac ids_differ :=
  first
    [ assumption
    | intros E; apply append_self_nil in E; discriminate E
    | apply Policy_suffix_not_fixed; unfold fixedIds; repeat constructor
    | intros E; symmetry in E; revert E;
      apply Policy_suffix_not_fixed; unfold fixedIds; repeat constructor
    | intros E; vm_compute in E; discriminate E ].

(** X9: the ten ids under which the constructs join the scope are pairwise
    distinct exactly when [thingName] is none of the seven ids written out
    in full and neither [thingName] nor [{thingName}Policy] is
    [IotRule_{ruuviTagId}]. *)
Theorem construct_ids_distinct_iff
  (this : Stack) (props : RuuviTagMonitoringStackProps) :
  NoDup (constructId <$> synth this props)
  <-> (thingName props ∉ fixedIds)
      /\ thingName props <> "IotRule_" +:+ ruuviTagId props
      /\ thingName props +:+ "Policy" <> "IotRule_" +:+ ruuviTagId props.
Proof.
  rewrite synth_construct_ids. unfold fixedIds.
  rewrite !NoDup_cons, !not_elem_of_cons. split.
  - intros H. repeat split; try (exact (not_elem_of_nil _)); tauto.
  - intros (H & HT & HP). destruct H as (? & ? & ? & ? & ? & ? & ? & _).
    repeat split;
      try (exact (not_elem_of_nil _)); try (exact (NoDup_nil_2));
      ids_differ.
Qed.

Lemma construct_ids_distinct_app :
  NoDup (constructId <$> synth (appStack "123456789012") appProps).
Proof.
  apply (construct_ids_distinct_iff (appStack "123456789012") appProps).
  unfold fixedIds. rewrite !not_elem_of_cons.
  repeat split; try (exact (not_elem_of_nil _)); discriminate.
Defined.

(** X11: stacks for different tags never share the name of their rule, nor
    the id passed to its declaration, nor, under one topic prefix, its
    filter expression. *)
Theorem distinct_tags_distinct_rules
  (this1 this2 : Stack) (props1 props2 : RuuviTagMonitoringStackProps) :
  ruuviTagId props1 <> ruuviTagId props2 ->
  iot.ruleName <$> topicRules (synth this1 props1)
  <> iot.ruleName <$> topicRules (synth this2 props2)
  /\ ruleIds (synth this1 props1) <> ruleIds (synth this2 props2)
  /\ (iotTopicPrefix props1 = iotTopicPrefix props2 ->
      (fun r => iot.sql (iot.topicRulePayload r))
        <$> topicRules (synth this1 props1)
      <> (fun r => iot.sql (iot.topicRulePayload r))
           <$> topicRules (synth this2 props2)).
Proof.
  intros Hne. split; [|split].
  - intros E. apply Hne. vm_compute in E. now injection E.
  - intros E. apply Hne. vm_compute in E. now injection E.
  - intros Hprefix E. apply Hne.
    change ([("SELECT temperature,humidity FROM '" +:+ iotTopicPrefix props1)
               +:+ "/" +:+ ruuviTagId props1 +:+ "'"]
            = [("SELECT temperature,humidity FROM '"
                  +:+ iotTopicPrefix props2)
                 +:+ "/" +:+ ruuviTagId props2 +:+ "'"]) in E.
    injection E as E. rewrite Hprefix in E.
    apply (inj (String.append _)) in E.
    apply (inj (String.append "/")) in E.
    exact (append_cancel_r _ _ _ E).
Qed.

Lemma distinct_tags_distinct_rules_app :
  iot.ruleName
    <$> topicRules (synth (appStack "123456789012") appProps)
  <> iot.ruleName
       <$> topicRules
             (synth (appStack "123456789012")
                {| thingName := "RaspberryPi";
                   iotTopicPrefix := "ruuvitag";
                   cloudWatchMetricNameSpace := "RuuviTag";
                   ruuviTagId := "c0ffee000001" |}).
Proof.
  refine (proj1 (distinct_tags_distinct_rules _ _ appProps _ _)).
  discriminate.
Defined.

(** X12: stacks for different thing names never share the name of their
    access policy nor of their dashboard. *)
Theorem distinct_things_distinct_names
  (this1 this2 : Stack) (props1 props2 : RuuviTagMonitoringStackProps) :
  thingName props1 <> thingName props2 ->
  iot.policyName <$> policies (synth this1 props1)
  <> iot.policyName <$> policies (synth this2 props2)
  /\ cw.dashboardName <$> dashboards (synth this1 props1)
     <> cw.dashboardName <$> dashboards (synth this2 props2).
Proof.
  intros Hne. split; intros E; apply Hne.
  - change ([Some (thingName props1 +:+ "Policy")]
            = [Some (thingName props2 +:+ "Policy")]) in E.
    injection E as E. exact (append_cancel_r _ _ _ E).
  - change ([thingName props1 +:+ "-Dashboard"]
            = [thingName props2 +:+ "-Dashboard"]) in E.
    injection E as E. exact (append_cancel_r _ _ _ E).
Qed.

Lemma distinct_things_distinct_names_app :
  iot.policyName
    <$> policies (synth (appStack "123456789012") appProps)
  <> iot.policyName
       <$> policies
             (synth (appStack "123456789012")
                {| thingName := "RaspberryPi2";
                   iotTopicPrefix := "ruuvitag";
                   cloudWatchMetricNameSpace := "RuuviTag";
                   ruuviTagId := "f3d619998f38" |}).
Proof.
  refine (proj1 (distinct_things_distinct_names _ _ appProps _ _)).
  discriminate.
Defined.

(** X13: the metric namespace and the topic do not tell where the
    configured part ends and the tag begins: a slash moved from the tag into
    the namespace (or the topic prefix) gives the same namespace, the same
    filter expression, and a different rule. *)
Theorem slash_moves_between_inputs
  (this : Stack) (thing a b c : string) :
  let props1 := {| thingName := thing;
                   iotTopicPrefix := a +:+ "/" +:+ b;
                   cloudWatchMetricNameSpace := a +:+ "/" +:+ b;
                   ruuviTagId := c |} in
  let props2 := {| thingName := thing;
                   iotTopicPrefix := a;
                   cloudWatchMetricNameSpace := a;
                   ruuviTagId := b +:+ "/" +:+ c |} in
  publishedSeries (synth this props1) = publishedSeries (synth this props2)
  /\ displayedSeries (synth this props1)
     = displayedSeries (synth this props2)
  /\ (fun r => iot.sql (iot.topicRulePayload r))
       <$> topicRules (synth this props1)
     = (fun r => iot.sql (iot.topicRulePayload r))
         <$> topicRules (synth this props2)
  /\ iot.ruleName <$> topicRules (synth this props1)
     <> iot.ruleName <$> topicRules (synth this props2).
Proof.
  intros props1 props2.
  assert (Hns : (a +:+ "/" +:+ b) +:+ "/" +:+ c
                = a +:+ "/" +:+ b +:+ "/" +:+ c)
    by (rewrite !append_assoc; reflexivity).
  split; [|split; [|split]].
  - change ([((a +:+ "/" +:+ b) +:+ "/" +:+ c, "Temperature");
             ((a +:+ "/" +:+ b) +:+ "/" +:+ c, "Humidity")]
            = [(a +:+ "/" +:+ b +:+ "/" +:+ c, "Temperature");
               (a +:+ "/" +:+ b +:+ "/" +:+ c, "Humidity")]).
    now rewrite Hns.
  - change ([((a +:+ "/" +:+ b) +:+ "/" +:+ c, "Humidity")]
            = [(a +:+ "/" +:+ b +:+ "/" +:+ c, "Humidity")]).
    now rewrite Hns.
  - rewrite !synth_sql. subst props1 props2. cbn [iotTopicPrefix ruuviTagId].
    now rewrite Hns.
  - intros E.
    change (["RuuviTagEvents_" +:+ c]
            = ["RuuviTagEvents_" +:+ b +:+ "/" +:+ c]) in E.
    injection E as E. apply (inj (String.append _)) in E.
    change c with (EmptyString +:+ c) in E at 1.
    rewrite <- (append_assoc b "/" c) in E.
    apply append_cancel_r in E. destruct b; discriminate E.
Qed.

(** *** What a change of input reaches *)

(** X14: a change of [ruuviTagId] or of [cloudWatchMetricNameSpace] leaves
    the first eight declarations as they were, from the device identity to
    the execution role: only the routing rule and the dashboard differ. *)
Theorem tag_change_reaches_rule_and_dashboard_only
  (this : Stack) (props1 props2 : RuuviTagMonitoringStackProps) :
  thingName props1 = thingName props2 ->
  iotTopicPrefix props1 = iotTopicPrefix props2 ->
  take 8 (synth this props1) = take 8 (synth this props2).
Proof.
  destruct props1, props2; simpl. intros -> ->. reflexivity.
Qed.

Lemma tag_change_reaches_rule_and_dashboard_only_app :
  take 8 (synth (appStack "123456789012") appProps)
  = take 8 (synth (appStack "123456789012")
              {| thingName := "RaspberryPi";
                 iotTopicPrefix := "ruuvitag";
                 cloudWatchMetricNameSpace := "Sensors";
                 ruuviTagId := "c0ffee000001" |}).
Proof.
  apply tag_change_reaches_rule_and_dashboard_only; reflexivity.
Defined.

(** *** Ids the library refuses *)

Example synth_app_scope_holds_twelve :
  (fun r => length (declarations r) + length (provided r))
    <$> synthesize idChecks (appStack "123456789012") appProps
  = Some 12.
Proof. reflexivity. Qed.

(** Two tags that differ only in how they write a separator are stored
    under one id. *)
Example stored_rule_ids_may_coincide :
  storedId ("IotRule_" +:+ "b/c") = storedId ("IotRule_" +:+ "b--c").
Proof. reflexivity. Qed.

(** X16: with a library that refuses empty and repeated ids, synthesis
    produces nothing when [thingName] is empty or is one of the seven ids
    the constructor writes out in full, such as [Dashboard]. *)
Theorem bad_thing_names_refused
  (lib : Library) (this : Stack) (props : RuuviTagMonitoringStackProps) :
  refusesBadIds lib ->
  thingName props = "" \/ thingName props ∈ fixedIds ->
  synthesize lib this props = None.
Proof.
  intros Hlib Hbad. unfold synthesize.
  destruct (accepts lib (synth this props)) eqn:Hacc; [|reflexivity].
  apply Hlib in Hacc. rewrite synth_construct_ids in Hacc.
  destruct props as [thing prefix ns tag]; simpl in *.
  destruct Hbad as [-> | Hin].
  - vm_compute in Hacc. discriminate Hacc.
  - unfold fixedIds in Hin.
    repeat (apply elem_of_cons in Hin as [-> | Hin];
            [vm_compute in Hacc; discriminate Hacc|]).
    now apply elem_of_nil in Hin.
Qed.

Lemma bad_thing_names_refused_app :
  refusesBadIds idChecks
  /\ synthesize idChecks (appStack "123456789012")
       {| thingName := "Dashboard";
          iotTopicPrefix := "ruuvitag";
          cloudWatchMetricNameSpace := "RuuviTag";
          ruuviTagId := "f3d619998f38" |}
     = None.
Proof.
  assert (Hlib : refusesBadIds idChecks) by (intros g Hg; exact Hg).
  split; [exact Hlib|].
  apply (bad_thing_names_refused idChecks); [exact Hlib|].
  right. unfold fixedIds. repeat constructor.
Defined.
